(** * whisper_transcribe.py: the command-line transcription shim

    A shallow embedding of [electron/services/whisper_transcribe.py] and the
    properties of its observable behaviour: what reaches standard output and
    standard error, the exit status, and which requests are made to the
    speech-recognition library.

    The script is fourteen lines of top-level Python.  It is embedded as a
    computation in a small monad that threads the process state (the trace of
    observable events, the files on disk) and carries Python's two non-local
    exits: a raised exception and [SystemExit]. *)

From Stdlib Require Import ZArith.
From stdpp Require Import base strings list gmap.

Local Open Scope Z_scope.
Local Open Scope string_scope.
Local Open Scope list_scope.

(** ** Python values and exceptions *)

(** The exception classes the script can meet.  [ModuleNotFoundError] is
    Python's subclass of [ImportError]; [LibraryError] stands for every other
    error class (deriving from [Exception], not from [ImportError]) the
    library may raise, by name. *)
Inductive exn_class : Type :=
  | ImportError
  | ModuleNotFoundError
  | KeyError
  | IndexError
  | UnicodeEncodeError
  | LibraryError (name : string).

Record exn : Type := Exn { exn_type : exn_class; exn_arg : string }.

(** [isinstance(e, ImportError)], the test of the [except ImportError:] clause. *)
Definition isinstance_ImportError (e : exn) : bool :=
  match exn_type e with
  | ImportError | ModuleNotFoundError => true
  | _ => false
  end.

(** A call into code the script does not contain either returns a value or
    raises an error. *)
Inductive outcome (A : Type) : Type :=
  | Returns (a : A)
  | Raises (e : exn).
Arguments Returns {A} a.
Arguments Raises {A} e.

(** The values stored in the fields of a transcription result.  The script
    only ever hands such a value to [print], which calls [str(v)] on it: for
    a [str] that is the string itself; any other object is given by what its
    [__str__] does, return a text or raise. *)
Inductive pyval : Type :=
  | PyStr (s : string)
  | PyObj (str_ : outcome string).

Definition py_str (v : pyval) : outcome string :=
  match v with
  | PyStr s => Returns s
  | PyObj o => o
  end.

(** ** The speech-recognition capability

    The library is opaque: a call either returns a value or raises an error. *)

(** [model.transcribe(path)] gives a dict; [whisper.load_model(name)] a model. *)
Record Model : Type := { transcribe : string → outcome (gmap string pyval) }.
Record Whisper : Type := { load_model : string → outcome Model }.

(** ** The world a run starts in *)
Record world : Type := World {
  sys_argv : list string;               (* sys.argv, program name first *)
  os_environ : gmap string string;      (* the environment variables *)
  files : gmap string string;           (* persistent state: path to content *)
  stdout_encodes : string → bool;       (* can [sys.stdout] encode this text *)
  import_whisper : outcome Whisper      (* what [import whisper] does *)
}.

(** [stdout_encodes] stands for the encoder of [sys.stdout]: its encoding and
    error handler, which the interpreter fixes at startup (from
    [PYTHONIOENCODING], else from the locale).  Strings hold text as UTF-8
    bytes. *)

(** ** Observable events *)
Inductive stream : Type := Stdout | Stderr.

Inductive request : Type :=
  | ImportModule (name : string)
  | LoadModel (name : string)
  | Transcribe (path : string).

Inductive event : Type :=
  | Called (r : request)                (* the request is issued *)
  | Returned (r : request)              (* it came back with a value *)
  | Raised (r : request) (e : exn)      (* it raised *)
  | Output (fd : stream) (s : string).  (* text written to a stream *)

Global Instance stream_eq_dec : EqDecision stream.
Proof. solve_decision. Defined.

(** ** The process monad *)

Record state : Type := State {
  st_trace : list event;
  st_files : gmap string string
}.

(** How a computation leaves: with a value, with a raised exception, or
    with [SystemExit(code)] (what [sys.exit] raises). *)
Inductive signal (A : Type) : Type :=
  | Val (a : A)
  | Raise (e : exn)
  | SysExit (code : Z).
Arguments Val {A} a.
Arguments Raise {A} e.
Arguments SysExit {A} code.

Definition proc (A : Type) : Type := world → state → state * signal A.

Global Instance proc_ret : MRet proc := λ A a _ st, (st, Val a).

Global Instance proc_bind : MBind proc := λ A B f m w st,
  match m w st with
  | (st', Val a) => f a w st'
  | (st', Raise e) => (st', Raise e)
  | (st', SysExit c) => (st', SysExit c)
  end.

Definition emit (ev : event) : proc unit := λ _ st,
  (State (st_trace st ++ [ev]) (st_files st), Val ()).

Definition raise {A} (e : exn) : proc A := λ _ st, (st, Raise e).

(** [sys.exit(code)] raises [SystemExit]; no [except] clause of the script
    names it, so it ends the process. *)
Definition sys_exit {A} (code : Z) : proc A := λ _ st, (st, SysExit code).

(** [try: body / except <class>: handler].  Only an exception of the named
    class is handled; any other, and [SystemExit], passes through. *)
Definition try_except {A} (body : proc A) (catches : exn → bool)
    (handler : exn → proc A) : proc A := λ w st,
  match body w st with
  | (st', Raise e) => if catches e then handler e w st' else (st', Raise e)
  | r => r
  end.

Definition nl : string := String (Ascii.ascii_of_nat 10) "".

(** [str(v)] *)
Definition str (v : pyval) : proc string :=
  match py_str v with
  | Returns s => mret s
  | Raises e => raise e
  end.

(** Writing one line to a stream.  [sys.stdout] raises [UnicodeEncodeError]
    when its encoder cannot take the text, and then nothing is written;
    [sys.stderr] escapes what it cannot encode (its error handler is always
    [backslashreplace]) and takes every text. *)
Definition write_line (fd : stream) (s : string) : proc unit := λ w,
  match fd with
  | Stdout =>
      if stdout_encodes w s
      then emit (Output Stdout (s +:+ nl)) w
      else raise (Exn UnicodeEncodeError s) w
  | Stderr => emit (Output Stderr (s +:+ nl)) w
  end.

(** [print(v, file=fd)]: [str(v)], then the line end. *)
Definition print (v : pyval) (fd : stream) : proc unit :=
  s ← str v ; write_line fd s.

(** A request to the outside: logged when issued and when it comes back. *)
Definition perform {A} (r : request) (o : outcome A) : proc A :=
  emit (Called r) ;;
  match o with
  | Returns a => emit (Returned r) ;; mret a
  | Raises e => emit (Raised r e) ;; raise e
  end.

(** [import whisper] *)
Definition import_ : proc Whisper := λ w,
  perform (ImportModule "whisper") (import_whisper w) w.

(** [sys.argv] *)
Definition argv : proc (list string) := λ w st, (st, Val (sys_argv w)).

(** [l[i]] on a list: [IndexError] out of range. *)
Definition list_getitem (l : list string) (i : nat) : proc string :=
  match l !! i with
  | Some x => mret x
  | None => raise (Exn IndexError "list index out of range")
  end.

(** [d[k]] on a dict: [KeyError(k)] when the key is absent. *)
Definition dict_getitem (d : gmap string pyval) (k : string) : proc pyval :=
  match d !! k with
  | Some v => mret v
  | None => raise (Exn KeyError k)
  end.

(** ** The script *)

Definition msg_not_installed : string :=
  "Whisper not installed. Please run: pip install openai-whisper".
Definition msg_usage : string :=
  "Usage: python whisper_transcribe.py <audio_path>".

Definition script : proc unit :=
  (* import sys *)
  whisper ← try_except import_ isinstance_ImportError (λ _,
              print (PyStr msg_not_installed) Stderr ;;
              sys_exit 1) ;
  args ← argv ;
  (if bool_decide (length args < 2)%nat
   then print (PyStr msg_usage) Stderr ;; sys_exit 1
   else mret ()) ;;
  model ← perform (LoadModel "base") (load_model whisper "base") ;
  args ← argv ;
  path ← list_getitem args 1 ;
  result ← perform (Transcribe path) (transcribe model path) ;
  text ← dict_getitem result "text" ;
  print text Stdout.

(** ** Running the script as a process *)

Inductive completion : Type :=
  | Finished                 (* the script ran to its last line *)
  | Exited (code : Z)        (* SystemExit *)
  | Uncaught (e : exn).      (* an exception reached the top level *)

Record process : Type := Process {
  trace : list event;
  ending : completion;
  files_after : gmap string string
}.

Definition run (w : world) : process :=
  let '(st, r) := script w (State [] (files w)) in
  Process (st_trace st)
          (match r with
           | Val _ => Finished
           | Raise e => Uncaught e
           | SysExit c => Exited c
           end)
          (st_files st).

(** The interpreter's exit status: 0 at the end of the script, the code of
    [SystemExit], 1 after an uncaught exception. *)
Definition exit_status (p : process) : Z :=
  match ending p with
  | Finished => 0
  | Exited c => c
  | Uncaught _ => 1
  end.

Definition written (fd : stream) (tr : list event) : list string :=
  omap (λ ev, match ev with
              | Output fd' s => if decide (fd' = fd) then Some s else None
              | _ => None
              end) tr.

Definition stdout (p : process) : string :=
  String.concat "" (written Stdout (trace p)).

(** What is on standard error: the script's own text and, after an uncaught
    exception, the interpreter's report of it (traceback and final line,
    whose layout is the interpreter's business). *)
Inductive chunk : Type :=
  | Text (s : string)
  | Report (e : exn).

Definition stderr (p : process) : list chunk :=
  (Text <$> written Stderr (trace p)) ++
  match ending p with
  | Uncaught e => [Report e]
  | _ => []
  end.

Definition requests (tr : list event) : list request :=
  omap (λ ev, match ev with Called r => Some r | _ => None end) tr.

Definition load_model_names (tr : list event) : list string :=
  omap (λ r, match r with LoadModel n => Some n | _ => None end) (requests tr).

Definition transcribe_paths (tr : list event) : list string :=
  omap (λ r, match r with Transcribe p => Some p | _ => None end) (requests tr).

(** The same world with another argument list. *)
Definition with_argv (args : list string) (w : world) : world :=
  World args (os_environ w) (files w) (stdout_encodes w) (import_whisper w).


(** ** Traces *)

(** No write to standard output comes before the return of a
    transcription request. *)
Fixpoint quiet_until_transcribed (tr : list event) : bool :=
  match tr with
  | [] => true
  | Returned (Transcribe _) :: _ => true
  | Output Stdout _ :: _ => false
  | _ :: tr' => quiet_until_transcribed tr'
  end.

(** ** The runs of the script, written out

    [outline] lists what a run does according to what the world answers: the
    outcome of the import, whether [sys.argv[1]] exists, the outcome of the
    two library calls, whether the result has a ['text'] key, what [str]
    gives for its value and whether standard output can encode that. *)

Definition imp : request := ImportModule "whisper".

Definition outline (w : world) : process :=
  match import_whisper w with
  | Raises e =>
      if isinstance_ImportError e
      then Process [Called imp; Raised imp e;
                    Output Stderr (msg_not_installed +:+ nl)]
                   (Exited 1) (files w)
      else Process [Called imp; Raised imp e] (Uncaught e) (files w)
  | Returns wh =>
      match sys_argv w !! 1%nat with
      | None =>
          Process [Called imp; Returned imp; Output Stderr (msg_usage +:+ nl)]
                  (Exited 1) (files w)
      | Some path =>
          let load := LoadModel "base" in
          match load_model wh "base" with
          | Raises e =>
              Process [Called imp; Returned imp; Called load; Raised load e]
                      (Uncaught e) (files w)
          | Returns m =>
              let tr := Transcribe path in
              match transcribe m path with
              | Raises e =>
                  Process [Called imp; Returned imp; Called load; Returned load;
                           Called tr; Raised tr e]
                          (Uncaught e) (files w)
              | Returns r =>
                  match r !! "text" with
                  | None =>
                      Process [Called imp; Returned imp;
                               Called load; Returned load;
                               Called tr; Returned tr]
                              (Uncaught (Exn KeyError "text")) (files w)
                  | Some v =>
                      match py_str v with
                      | Raises e =>
                          Process [Called imp; Returned imp;
                                   Called load; Returned load;
                                   Called tr; Returned tr]
                                  (Uncaught e) (files w)
                      | Returns s =>
                          if stdout_encodes w s
                          then Process [Called imp; Returned imp;
                                        Called load; Returned load;
                                        Called tr; Returned tr;
                                        Output Stdout (s +:+ nl)]
                                       Finished (files w)
                          else Process [Called imp; Returned imp;
                                        Called load; Returned load;
                                        Called tr; Returned tr]
                                       (Uncaught (Exn UnicodeEncodeError s))
                                       (files w)
                      end
                  end
              end
          end
      end
  end.

(** ** Sample worlds *)

Definition hello_result : gmap string pyval :=
  {[ "text" := PyStr "hello world"; "language" := PyStr "en" ]}.

Definition stub_model (r : outcome (gmap string pyval)) : Model :=
  {| transcribe := λ _, r |}.

Definition stub_whisper (m : outcome Model) : Whisper :=
  {| load_model := λ _, m |}.

(** A UTF-8 standard output encodes every text. *)
Definition utf8_stream : string → bool := λ _, true.

(** An ASCII standard output with the strict error handler (as under
    [PYTHONIOENCODING=ascii]) encodes 7-bit text only. *)
Fixpoint ascii_stream (s : string) : bool :=
  match s with
  | EmptyString => true
  | String c s' => bool_decide (Ascii.nat_of_ascii c < 128)%nat && ascii_stream s'
  end.

Definition stub_world (args : list string) (o : outcome Whisper) : world :=
  World args ∅ ∅ utf8_stream o.

Definition transcribing (args : list string) (r : outcome (gmap string pyval))
    : world :=
  stub_world args (Returns (stub_whisper (Returns (stub_model r)))).

Definition prog_name : string := "whisper_transcribe.py".

Definition rich_result : gmap string pyval :=
  {[ "text" := PyStr "hello world"; "language" := PyStr "fr";
     "segments" := PyObj (Returns "[{'id': 0, 'start': 0.0, 'end': 1.5}]") ]}.



Definition hello_world : world :=
  transcribing [prog_name; "a.wav"] (Returns hello_result).

Definition no_args_world : world :=
  transcribing [prog_name] (Returns hello_result).

Definition not_installed_world : world :=
  stub_world [prog_name; "a.wav"]
    (Raises (Exn ModuleNotFoundError "No module named 'whisper'")).

Definition unsupported_format : exn :=
  Exn (LibraryError "RuntimeError") "unsupported format".

Definition bad_audio_world : world :=
  transcribing [prog_name; "a.xyz"] (Raises unsupported_format).

Definition rich_world : world :=
  World [prog_name; "b.mp3"] {[ "HOME" := "/home/user" ]}
        {[ "config.json" := "{}" ]} utf8_stream
        (Returns (stub_whisper (Returns (stub_model (Returns rich_result))))).

Definition textless_world : world :=
  transcribing [prog_name; "a.wav"] (Returns {[ "language" := PyStr "en" ]}).

(** A library that knows the tier ["base"] only, with a model whose
    transcript depends on the path it is given. *)
Definition echo_model : Model :=
  {| transcribe := λ path, Returns {[ "text" := PyStr ("heard " +:+ path) ]} |}.

Definition base_only_whisper : Whisper :=
  {| load_model := λ name,
       if decide (name = "base") then Returns echo_model
       else Raises (Exn (LibraryError "RuntimeError") "model not found") |}.

Definition many_args_world : world :=
  stub_world [prog_name; "a.wav"; "b.wav"; "c.wav"] (Returns base_only_whisper).

Definition bare_rich_world : world :=
  transcribing [prog_name; "b.mp3"] (Returns rich_result).

(** The library is installed but importing it breaks on something other
    than an [ImportError]. *)
Definition broken_install : exn :=
  Exn (LibraryError "OSError") "libtorch.so: cannot open shared object file".

Definition broken_install_world : world :=
  stub_world [prog_name; "a.wav"] (Raises broken_install).

Definition echo_world : world :=
  stub_world [prog_name; "a.wav"] (Returns base_only_whisper).

Definition object_text_world : world :=
  transcribing [prog_name; "a.wav"]
    (Returns {[ "text" := PyObj (Returns "None") ]}).

(** A transcript outside ASCII, under a UTF-8 and under an ASCII standard
    output. *)
Definition cafe : string := "café".

Definition cafe_result : gmap string pyval := {[ "text" := PyStr cafe ]}.

Definition cafe_whisper : Whisper :=
  stub_whisper (Returns (stub_model (Returns cafe_result))).

Definition utf8_cafe_world : world :=
  World [prog_name; "a.wav"] {[ "PYTHONIOENCODING" := "utf-8" ]} ∅
        utf8_stream (Returns cafe_whisper).

Definition ascii_cafe_world : world :=
  World [prog_name; "a.wav"] {[ "PYTHONIOENCODING" := "ascii" ]} ∅
        ascii_stream (Returns cafe_whisper).

(** * Properties *)

(** ** The process monad is a monad (pointwise) *)

Lemma proc_left_id {A B} (a : A) (f : A → proc B) w st :
  (mret a ≫= f) w st = f a w st.
Proof. reflexivity. Qed.

Lemma proc_right_id {A} (m : proc A) w st : (m ≫= mret) w st = m w st.
Proof.
  unfold mbind, proc_bind, mret, proc_ret.
  destruct (m w st) as [st' [a|e|c]]; reflexivity.
Qed.

Lemma proc_assoc {A B C} (m : proc A) (f : A → proc B) (g : B → proc C) w st :
  ((m ≫= f) ≫= g) w st = (m ≫= λ a, f a ≫= g) w st.
Proof.
  unfold mbind, proc_bind.
  destruct (m w st) as [st' [a|e|c]]; reflexivity.
Qed.

(** A handler is never entered for [SystemExit], nor for a class it does
    not name. *)
Lemma try_except_passes {A} (body : proc A) catches handler w st st' e :
  body w st = (st', Raise e) → catches e = false →
  try_except body catches handler w st = (st', Raise e).
Proof. intros Hb Hc. unfold try_except. rewrite Hb, Hc. reflexivity. Qed.

Lemma try_except_sys_exit {A} (body : proc A) catches handler w st st' c :
  body w st = (st', SysExit c) →
  try_except body catches handler w st = (st', SysExit c).
Proof. intros Hb. unfold try_except. rewrite Hb. reflexivity. Qed.

Ltac proc_eval :=
  cbv beta iota zeta delta
    [run script mbind proc_bind mret proc_ret try_except import_ perform
     print str py_str write_line emit raise sys_exit argv list_getitem
     dict_getitem st_trace st_files app].

Lemma guard_passes (args : list string) (path : string) :
  args !! 1%nat = Some path → bool_decide (length args < 2)%nat = false.
Proof.
  intros Ha. apply bool_decide_eq_false.
  apply lookup_lt_Some in Ha. lia.
Qed.

Lemma guard_stops (args : list string) :
  args !! 1%nat = None → bool_decide (length args < 2)%nat = true.
Proof.
  intros Ha. apply bool_decide_eq_true.
  apply lookup_ge_None in Ha. lia.
Qed.

Lemma run_outline (w : world) : run w = outline w.
Proof.
  unfold outline. proc_eval.
  destruct (import_whisper w) as [wh|e]; proc_eval.
  - destruct (sys_argv w !! 1%nat) as [path|] eqn:Ha.
    + rewrite (guard_passes _ _ Ha). proc_eval.
      destruct (load_model wh "base") as [m|e]; proc_eval; [|reflexivity].
      destruct (transcribe m path) as [r|e]; proc_eval; [|reflexivity].
      destruct (r !! "text") as [v|]; proc_eval; [|reflexivity].
      destruct v as [s|[s|e]]; proc_eval; try reflexivity;
        destruct (stdout_encodes w s); reflexivity.
    + rewrite (guard_stops _ Ha). reflexivity.
  - destruct (isinstance_ImportError e); reflexivity.
Qed.

(** Sample runs. *)
Example hello_trace : trace (run hello_world) =
  [Called (ImportModule "whisper"); Returned (ImportModule "whisper");
   Called (LoadModel "base"); Returned (LoadModel "base");
   Called (Transcribe "a.wav"); Returned (Transcribe "a.wav");
   Output Stdout ("hello world" +:+ nl)].
Proof. vm_compute. reflexivity. Qed.

Example hello_stdout : stdout (run hello_world) = "hello world" +:+ nl.
Proof. vm_compute. reflexivity. Qed.

Example many_args_stdout :
  stdout (run many_args_world) = "heard a.wav" +:+ nl.
Proof. vm_compute. reflexivity. Qed.

Example no_module_stderr :
  stderr (run (stub_world [prog_name; "a.wav"]
                 (Raises (Exn ModuleNotFoundError "No module named 'whisper'"))))
  = [Text (msg_not_installed +:+ nl)].
Proof. vm_compute. reflexivity. Qed.

(** The script looks at [sys.argv] only through [sys.argv[1]]; beyond that
    a run depends on the library and on the encoder of standard output. *)
Lemma run_ext (w1 w2 : world) :
  import_whisper w1 = import_whisper w2 →
  sys_argv w1 !! 1%nat = sys_argv w2 !! 1%nat →
  stdout_encodes w1 = stdout_encodes w2 →
  trace (run w1) = trace (run w2) ∧ ending (run w1) = ending (run w2).
Proof.
  intros Hi Ha He. rewrite !run_outline. unfold outline. rewrite Hi, Ha, He.
  repeat case_match; split; reflexivity.
Qed.

Lemma run_files (w : world) : files_after (run w) = files w.
Proof.
  rewrite run_outline. unfold outline. repeat case_match; reflexivity.
Qed.

Lemma written_app fd (tr1 tr2 : list event) :
  written fd (tr1 ++ tr2) = written fd tr1 ++ written fd tr2.
Proof. unfold written. apply omap_app. Qed.

Lemma quiet_until_transcribed_split (tr pre post : list event) (s : string) :
  quiet_until_transcribed tr = true →
  tr = pre ++ Output Stdout s :: post →
  ∃ path, Returned (Transcribe path) ∈ pre.
Proof.
  intros Hq ->. induction pre as [|ev pre IH].
  - discriminate.
  - destruct ev as [r|[n|n|p]|r e|[|] s']; simpl in Hq;
      try (destruct (IH Hq) as [p' Hp]; exists p'; apply elem_of_cons; by right).
    + exists p. apply elem_of_cons. by left.
    + discriminate.
Qed.

Lemma run_quiet (w : world) : quiet_until_transcribed (trace (run w)) = true.
Proof.
  rewrite run_outline. unfold outline. repeat case_match; reflexivity.
Qed.

Lemma run_writes_stdout_once (w : world) :
  (length (written Stdout (trace (run w))) ≤ 1)%nat.
Proof.
  rewrite run_outline. unfold outline. repeat case_match; simpl; lia.
Qed.

(** Splitting a membership in a list that is written out. *)
Ltac in_list H :=
  repeat (apply elem_of_cons in H as [H|H]; [try discriminate H|]);
  try (by apply elem_of_nil in H).

Lemma load_model_name_base (w : world) (n : string) :
  n ∈ load_model_names (trace (run w)) → n = "base".
Proof.
  rewrite run_outline. unfold outline.
  repeat case_match; simpl; intros Hin; in_list Hin; exact Hin.
Qed.

Lemma load_model_names_cases (w : world) :
  load_model_names (trace (run w)) = [] ∨
  load_model_names (trace (run w)) = ["base"].
Proof.
  rewrite run_outline. unfold outline.
  repeat case_match; simpl; by (left + right).
Qed.

Lemma no_argument (args : list string) :
  drop 1 args = [] → args !! 1%nat = None.
Proof. destruct args as [|prog [|a rest]]; simpl; [done|done|discriminate]. Qed.

(** The [except] clause names [ImportError] only: any other exception raised
    while importing reaches the top level. *)
Lemma import_crash_propagates (w : world) (e : exn) :
  import_whisper w = Raises e → isinstance_ImportError e = false →
  ending (run w) = Uncaught e ∧ stderr (run w) = [Report e].
Proof.
  intros Hi Hc. rewrite run_outline. unfold outline. rewrite Hi, Hc.
  split; reflexivity.
Qed.

(** * The claims *)

(** C1.  When the library can be imported, an audio path is given,
    transcription succeeds with a result whose ['text'] is the string [t],
    and standard output can encode [t], standard output is exactly [t]
    followed by one newline and the exit status is 0. *)
Theorem transcript_printed (w : world) (wh : Whisper) (m : Model)
    (path : string) (r : gmap string pyval) (t : string) :
  import_whisper w = Returns wh →
  sys_argv w !! 1%nat = Some path →
  load_model wh "base" = Returns m →
  transcribe m path = Returns r →
  r !! "text" = Some (PyStr t) →
  stdout_encodes w t = true →
  stdout (run w) = t +:+ nl ∧ exit_status (run w) = 0.
Proof.
  intros Hi Ha Hl Ht Hr He. rewrite run_outline. unfold outline.
  rewrite Hi, Ha, Hl, Ht, Hr. simpl. rewrite He. split; reflexivity.
Qed.

Lemma transcript_printed_witness :
  stdout (run hello_world) = "hello world" +:+ nl ∧
  exit_status (run hello_world) = 0.
Proof.
  apply (transcript_printed hello_world
           (stub_whisper (Returns (stub_model (Returns hello_result))))
           (stub_model (Returns hello_result)) "a.wav" hello_result
           "hello world"); reflexivity.
Defined.

(** Without the last condition the transcript may be lost: the library is
    there, the path is given, transcription returns the text ["café"], but
    standard output is ASCII; the run ends with status 1 and an empty
    standard output. *)
Lemma transcript_printed_counterexample :
  import_whisper ascii_cafe_world = Returns cafe_whisper ∧
  sys_argv ascii_cafe_world !! 1%nat = Some "a.wav" ∧
  load_model cafe_whisper "base" = Returns (stub_model (Returns cafe_result)) ∧
  transcribe (stub_model (Returns cafe_result)) "a.wav" = Returns cafe_result ∧
  cafe_result !! "text" = Some (PyStr cafe) ∧
  stdout (run ascii_cafe_world) = "" ∧
  stdout (run ascii_cafe_world) ≠ cafe +:+ nl ∧
  exit_status (run ascii_cafe_world) = 1 ∧
  ending (run ascii_cafe_world) = Uncaught (Exn UnicodeEncodeError cafe).
Proof. repeat split; try reflexivity. vm_compute. discriminate. Qed.



(** C3.  When [import whisper] fails with an [ImportError] (the class the
    [except] clause names, [ModuleNotFoundError] included), whatever the
    arguments, the remediation message (which names the package to install)
    goes to standard error, standard output stays empty, the exit status is
    1, and nothing further is attempted: the import is the only request and
    the usage message of the argument check is not written. *)
Theorem dependency_missing (w : world) (e : exn) :
  import_whisper w = Raises e →
  isinstance_ImportError e = true →
  stderr (run w) = [Text (msg_not_installed +:+ nl)] ∧
  (∃ pre post,
     msg_not_installed = pre +:+ "pip install openai-whisper" +:+ post) ∧
  stdout (run w) = "" ∧
  exit_status (run w) = 1 ∧
  requests (trace (run w)) = [ImportModule "whisper"] ∧
  Output Stderr (msg_usage +:+ nl) ∉ trace (run w).
Proof.
  intros Hi Hc. rewrite run_outline. unfold outline. rewrite Hi, Hc.
  repeat split; try reflexivity.
  - exists "Whisper not installed. Please run: ", "". reflexivity.
  - simpl. intros Hin. in_list Hin.
Qed.

Lemma dependency_missing_witness :
  stderr (run not_installed_world) = [Text (msg_not_installed +:+ nl)] ∧
  (∃ pre post,
     msg_not_installed = pre +:+ "pip install openai-whisper" +:+ post) ∧
  stdout (run not_installed_world) = "" ∧
  exit_status (run not_installed_world) = 1 ∧
  requests (trace (run not_installed_world)) = [ImportModule "whisper"] ∧
  Output Stderr (msg_usage +:+ nl) ∉ trace (run not_installed_world).
Proof.
  apply (dependency_missing not_installed_world
           (Exn ModuleNotFoundError "No module named 'whisper'"));
    reflexivity.
Defined.

(** Not every failed import is an [ImportError]: when the import raises
    [OSError] the capability cannot be imported either, yet no remediation
    message is written and standard error holds the interpreter's report. *)
Lemma dependency_missing_counterexample :
  import_whisper broken_install_world = Raises broken_install ∧
  stderr (run broken_install_world) = [Report broken_install] ∧
  stderr (run broken_install_world) ≠ [Text (msg_not_installed +:+ nl)] ∧
  written Stderr (trace (run broken_install_world)) = [].
Proof. repeat split; try reflexivity. vm_compute. discriminate. Qed.

(** C4.  An error raised by [load_model] or by [transcribe] is not caught:
    it reaches the top level as it was raised, the exit status is non-zero,
    standard error carries the interpreter's report of that error, and
    nothing is written to standard output. *)
Theorem library_error_propagates (w : world) (wh : Whisper) (path : string)
    (e : exn) :
  import_whisper w = Returns wh →
  sys_argv w !! 1%nat = Some path →
  (load_model wh "base" = Raises e ∨
   ∃ m, load_model wh "base" = Returns m ∧ transcribe m path = Raises e) →
  ending (run w) = Uncaught e ∧
  exit_status (run w) ≠ 0 ∧
  stderr (run w) = [Report e] ∧
  stdout (run w) = "".
Proof.
  intros Hi Ha Herr. rewrite run_outline. unfold outline. rewrite Hi, Ha.
  destruct Herr as [Hl | (m & Hl & Ht)]; rewrite Hl; [|rewrite Ht];
    repeat split; try reflexivity; discriminate.
Qed.

Lemma library_error_propagates_witness :
  ending (run bad_audio_world) = Uncaught unsupported_format ∧
  exit_status (run bad_audio_world) ≠ 0 ∧
  stderr (run bad_audio_world) = [Report unsupported_format] ∧
  stdout (run bad_audio_world) = "".
Proof.
  apply (library_error_propagates bad_audio_world
           (stub_whisper (Returns (stub_model (Raises unsupported_format))))
           "a.xyz" unsupported_format); [reflexivity | reflexivity |].
  right. exists (stub_model (Raises unsupported_format)).
  split; reflexivity.
Defined.

(** The model-loading step is reached as soon as the import succeeds and an
    argument is present, and then asks for ["base"] once. *)
Lemma load_model_requested (w : world) (wh : Whisper) (path : string) :
  import_whisper w = Returns wh →
  sys_argv w !! 1%nat = Some path →
  load_model_names (trace (run w)) = ["base"].
Proof.
  intros Hi Ha. rewrite run_outline. unfold outline. rewrite Hi, Ha.
  repeat case_match; reflexivity.
Qed.

(** C5.  Every [load_model] request, on every invocation, names the tier
    ["base"]; so on any two invocations that reach the model-loading step,
    whatever their audio paths, the names passed to [load_model] are the
    same. *)
Theorem model_tier_constant (w1 w2 : world) (n1 n2 : string) :
  n1 ∈ load_model_names (trace (run w1)) →
  n2 ∈ load_model_names (trace (run w2)) →
  n1 = "base" ∧ n2 = n1 ∧
  load_model_names (trace (run w1)) = load_model_names (trace (run w2)).
Proof.
  intros H1 H2.
  pose proof (load_model_name_base _ _ H1) as ->.
  pose proof (load_model_name_base _ _ H2) as ->.
  repeat split.
  destruct (load_model_names_cases w1) as [E1|E1],
           (load_model_names_cases w2) as [E2|E2];
    rewrite E1 in H1; rewrite E2 in H2; rewrite ?E1, ?E2;
    first [reflexivity | by apply elem_of_nil in H1
                       | by apply elem_of_nil in H2].
Qed.

Lemma model_tier_constant_witness :
  sys_argv hello_world !! 1%nat ≠ sys_argv rich_world !! 1%nat ∧
  "base" = "base" ∧ "base" = "base" ∧
  load_model_names (trace (run hello_world)) =
  load_model_names (trace (run rich_world)).
Proof.
  split; [discriminate|].
  apply (model_tier_constant hello_world rich_world "base" "base");
    apply list_elem_of_singleton; reflexivity.
Defined.

(** C6.  Wherever a write to standard output sits in the trace of a run, a
    transcription request has returned before it, and there is no other
    write to standard output, neither before nor after. *)
Theorem no_output_before_transcription (w : world) (pre post : list event)
    (s : string) :
  trace (run w) = pre ++ Output Stdout s :: post →
  (∃ path, Returned (Transcribe path) ∈ pre) ∧
  written Stdout pre = [] ∧
  written Stdout post = [].
Proof.
  intros Hsplit. split.
  - eapply quiet_until_transcribed_split; [apply run_quiet | exact Hsplit].
  - pose proof (run_writes_stdout_once w) as Hlen.
    rewrite Hsplit, written_app, length_app in Hlen. simpl in Hlen.
    destruct (written Stdout pre), (written Stdout post);
      simpl in Hlen; first [done | lia].
Qed.

Lemma no_output_before_transcription_witness :
  (∃ path, Returned (Transcribe path) ∈
     [Called imp; Returned imp;
      Called (LoadModel "base"); Returned (LoadModel "base");
      Called (Transcribe "a.wav"); Returned (Transcribe "a.wav")]) ∧
  written Stdout
    [Called imp; Returned imp;
     Called (LoadModel "base"); Returned (LoadModel "base");
     Called (Transcribe "a.wav"); Returned (Transcribe "a.wav")] = [] ∧
  written Stdout [] = [].
Proof.
  apply (no_output_before_transcription hello_world _ []
           ("hello world" +:+ nl)).
  reflexivity.
Defined.



(** C8.  The script reads no environment variable and no file of its own
    and writes no file.  A run is determined by the argument list, by what
    the library answers and by the encoder the interpreter gave standard
    output: two worlds that agree on these give the same trace and the same
    ending, whatever else their environment variables and files hold; and
    the files are after the run what they were before it. *)
Theorem script_frame (w1 w2 : world) :
  sys_argv w1 = sys_argv w2 →
  import_whisper w1 = import_whisper w2 →
  stdout_encodes w1 = stdout_encodes w2 →
  trace (run w1) = trace (run w2) ∧
  ending (run w1) = ending (run w2) ∧
  files_after (run w1) = files w1 ∧
  files_after (run w2) = files w2.
Proof.
  intros Ha Hi He.
  destruct (run_ext w1 w2 Hi) as [Htr Hend]; [by rewrite Ha|exact He|].
  rewrite !run_files. done.
Qed.

Lemma script_frame_witness :
  os_environ rich_world ≠ os_environ bare_rich_world ∧
  trace (run rich_world) = trace (run bare_rich_world) ∧
  ending (run rich_world) = ending (run bare_rich_world) ∧
  files_after (run rich_world) = files rich_world ∧
  files_after (run bare_rich_world) = files bare_rich_world.
Proof.
  split.
  - intros Heq. apply (f_equal (λ env, env !! "HOME")) in Heq.
    vm_compute in Heq. discriminate Heq.
  - apply (script_frame rich_world bare_rich_world); reflexivity.
Defined.

(** The argument list and the library's answers alone do not determine a
    run: the two worlds below have the same arguments and the same library
    and differ in the encoding of standard output ([PYTHONIOENCODING]); one
    prints the transcript and ends with status 0, the other ends with an
    uncaught [UnicodeEncodeError], status 1 and nothing printed. *)
Lemma script_frame_counterexample :
  sys_argv utf8_cafe_world = sys_argv ascii_cafe_world ∧
  import_whisper utf8_cafe_world = import_whisper ascii_cafe_world ∧
  files utf8_cafe_world = files ascii_cafe_world ∧
  ending (run utf8_cafe_world) = Finished ∧
  ending (run ascii_cafe_world) = Uncaught (Exn UnicodeEncodeError cafe) ∧
  exit_status (run utf8_cafe_world) ≠ exit_status (run ascii_cafe_world) ∧
  stdout (run utf8_cafe_world) ≠ stdout (run ascii_cafe_world).
Proof. repeat split; try reflexivity; vm_compute; discriminate. Qed.

(** C9.  With two or more arguments after the program name the run is the
    run with the first of them alone: the argument check lets it through (no
    usage message, and [load_model] is reached once the import has
    succeeded), the first argument is what [transcribe] is called with once
    the model is loaded, no other argument is ever passed to it, and the
    others change nothing. *)
Theorem extra_arguments_ignored (w : world) (prog a b : string)
    (rest : list string) :
  sys_argv w = prog :: a :: b :: rest →
  run w = run (with_argv [prog; a] w) ∧
  (Output Stderr (msg_usage +:+ nl) ∉ trace (run w)) ∧
  (∀ p, p ∈ transcribe_paths (trace (run w)) → p = a) ∧
  (∀ wh, import_whisper w = Returns wh →
         load_model_names (trace (run w)) = ["base"]) ∧
  (∀ wh m, import_whisper w = Returns wh →
           load_model wh "base" = Returns m →
           transcribe_paths (trace (run w)) = [a]).
Proof.
  intros Hargs. rewrite !run_outline. unfold outline, with_argv.
  rewrite Hargs. simpl.
  split; [reflexivity|].
  split; [|split; [intros p|split]].
  - repeat case_match; simpl; intros Hin; in_list Hin; exact Hin.
  - repeat case_match; simpl; intros Hin; in_list Hin; exact Hin.
  - intros wh ->. repeat case_match; reflexivity.
  - intros wh m -> ->. repeat case_match; reflexivity.
Qed.

Lemma extra_arguments_ignored_witness :
  run many_args_world = run (with_argv [prog_name; "a.wav"] many_args_world) ∧
  (Output Stderr (msg_usage +:+ nl) ∉ trace (run many_args_world)) ∧
  (∀ p, p ∈ transcribe_paths (trace (run many_args_world)) → p = "a.wav") ∧
  load_model_names (trace (run many_args_world)) = ["base"] ∧
  transcribe_paths (trace (run many_args_world)) = ["a.wav"] ∧
  stdout (run many_args_world) = "heard a.wav" +:+ nl.
Proof.
  destruct (extra_arguments_ignored many_args_world prog_name "a.wav" "b.wav"
              ["c.wav"] eq_refl) as (Hrun & Husage & Hpaths & Hload & Htr).
  split; [exact Hrun|]. split; [exact Husage|]. split; [exact Hpaths|].
  split; [|split].
  - apply (Hload base_only_whisper). reflexivity.
  - apply (Htr base_only_whisper echo_model); reflexivity.
  - reflexivity.
Defined.

(** C10.  When transcription returns a result without a ['text'] key, the
    lookup raises [KeyError('text')], which nothing catches: the exit status
    is non-zero and nothing is written to standard output. *)
Theorem missing_text_is_fault (w : world) (wh : Whisper) (m : Model)
    (path : string) (r : gmap string pyval) :
  import_whisper w = Returns wh →
  sys_argv w !! 1%nat = Some path →
  load_model wh "base" = Returns m →
  transcribe m path = Returns r →
  r !! "text" = None →
  ending (run w) = Uncaught (Exn KeyError "text") ∧
  exit_status (run w) ≠ 0 ∧
  written Stdout (trace (run w)) = [] ∧
  stdout (run w) = "".
Proof.
  intros Hi Ha Hl Ht Hr. rewrite run_outline. unfold outline.
  rewrite Hi, Ha, Hl, Ht, Hr. repeat split; try reflexivity; discriminate.
Qed.

Lemma missing_text_is_fault_witness :
  ending (run textless_world) = Uncaught (Exn KeyError "text") ∧
  exit_status (run textless_world) ≠ 0 ∧
  written Stdout (trace (run textless_world)) = [] ∧
  stdout (run textless_world) = "".
Proof.
  apply (missing_text_is_fault textless_world
           (stub_whisper (Returns (stub_model
              (Returns {[ "language" := PyStr "en" ]}))))
           (stub_model (Returns {[ "language" := PyStr "en" ]}))
           "a.wav" {[ "language" := PyStr "en" ]}); reflexivity.
Defined.

(** * Further properties of the script *)

Lemma line_not_empty (s : string) : s +:+ nl ≠ "".
Proof. destruct s; discriminate. Qed.

(** X1.  The [except] clause (lines 2-6) names [ImportError] only.  Any other
    exception raised while importing is not turned into the remediation
    message: it reaches the top level as raised, the exit status is non-zero,
    standard error carries the interpreter's report, standard output stays
    empty, and nothing is requested after the import. *)
Theorem import_other_exception_uncaught (w : world) (e : exn) :
  import_whisper w = Raises e →
  isinstance_ImportError e = false →
  ending (run w) = Uncaught e ∧
  exit_status (run w) ≠ 0 ∧
  stderr (run w) = [Report e] ∧
  written Stderr (trace (run w)) = [] ∧
  stdout (run w) = "" ∧
  requests (trace (run w)) = [ImportModule "whisper"].
Proof.
  intros Hi Hc. rewrite run_outline. unfold outline. rewrite Hi, Hc.
  repeat split; try reflexivity; discriminate.
Qed.

Lemma import_other_exception_uncaught_witness :
  ending (run broken_install_world) = Uncaught broken_install ∧
  exit_status (run broken_install_world) ≠ 0 ∧
  stderr (run broken_install_world) = [Report broken_install] ∧
  written Stderr (trace (run broken_install_world)) = [] ∧
  stdout (run broken_install_world) = "" ∧
  requests (trace (run broken_install_world)) = [ImportModule "whisper"].
Proof.
  apply (import_other_exception_uncaught broken_install_world broken_install);
    reflexivity.
Defined.

(** X2.  Exit status 0 and a non-empty standard output go together: the run
    ends with status 0 exactly when something was printed (the transcript
    line always has its newline).  And no run writes to both streams. *)
Theorem success_iff_output (w : world) :
  (exit_status (run w) = 0 ↔ stdout (run w) ≠ "") ∧
  (stdout (run w) = "" ∨ stderr (run w) = []).
Proof.
  rewrite run_outline. unfold outline.
  repeat case_match; unfold exit_status, stdout, stderr; simpl;
    (split; [split; intros Hx; first [done | discriminate Hx
                                     | apply line_not_empty]
            | first [by left | by right]]).
Qed.

(** X3.  Exit status 0 is reported only after a complete transcription: the
    import, the model load and the transcription all returned, the result
    had a ['text'] entry [v], [str(v)] returned a text [s] that standard
    output can encode, standard output is [s] and a newline, and standard
    error is empty. *)
Theorem success_means_transcribed (w : world) :
  exit_status (run w) = 0 →
  ∃ wh m path r v s,
    import_whisper w = Returns wh ∧
    sys_argv w !! 1%nat = Some path ∧
    load_model wh "base" = Returns m ∧
    transcribe m path = Returns r ∧
    r !! "text" = Some v ∧
    py_str v = Returns s ∧
    stdout_encodes w s = true ∧
    stdout (run w) = s +:+ nl ∧
    stderr (run w) = [].
Proof.
  rewrite run_outline. unfold outline.
  destruct (import_whisper w) as [wh|e] eqn:Hi;
    [|destruct (isinstance_ImportError e); discriminate].
  destruct (sys_argv w !! 1%nat) as [path|] eqn:Ha; [|discriminate].
  destruct (load_model wh "base") as [m|e] eqn:Hl; [|discriminate].
  destruct (transcribe m path) as [r|e] eqn:Ht; [|discriminate].
  destruct (r !! "text") as [v|] eqn:Hr; [|discriminate].
  destruct (py_str v) as [s|e] eqn:Hs; [|discriminate].
  destruct (stdout_encodes w s) eqn:He; [|discriminate].
  intros _. exists wh, m, path, r, v, s. repeat split; assumption.
Qed.

Lemma success_means_transcribed_witness :
  ∃ wh m path r v s,
    import_whisper echo_world = Returns wh ∧
    sys_argv echo_world !! 1%nat = Some path ∧
    load_model wh "base" = Returns m ∧
    transcribe m path = Returns r ∧
    r !! "text" = Some v ∧
    py_str v = Returns s ∧
    stdout_encodes echo_world s = true ∧
    stdout (run echo_world) = s +:+ nl ∧
    stderr (run echo_world) = [].
Proof. apply (success_means_transcribed echo_world). reflexivity. Defined.

(** X4.  The requests of a run are made in the order of the script and at
    most once each: they are an initial part of [import whisper],
    [load_model('base')], [transcribe(sys.argv[1])]. *)
Theorem requests_in_script_order (w : world) :
  requests (trace (run w)) `prefix_of`
    [ImportModule "whisper"; LoadModel "base";
     Transcribe (default "" (sys_argv w !! 1%nat))].
Proof.
  rewrite run_outline. unfold outline.
  repeat case_match; simpl; by eexists.
Qed.

(** X5.  The argument check (lines 8-10) comes before the model load (line
    12): when the argument is missing, the import is the only request, so no
    model is loaded and nothing is transcribed. *)
Theorem usage_error_loads_no_model (w : world) (wh : Whisper) :
  import_whisper w = Returns wh →
  drop 1 (sys_argv w) = [] →
  requests (trace (run w)) = [ImportModule "whisper"] ∧
  load_model_names (trace (run w)) = [] ∧
  transcribe_paths (trace (run w)) = [].
Proof.
  intros Hi Hd. apply no_argument in Hd.
  rewrite run_outline. unfold outline. rewrite Hi, Hd.
  repeat split; reflexivity.
Qed.

Lemma usage_error_loads_no_model_witness :
  requests (trace (run no_args_world)) = [ImportModule "whisper"] ∧
  load_model_names (trace (run no_args_world)) = [] ∧
  transcribe_paths (trace (run no_args_world)) = [].
Proof.
  apply (usage_error_loads_no_model no_args_world
           (stub_whisper (Returns (stub_model (Returns hello_result)))));
    reflexivity.
Defined.

(** X6.  The script leaves through [sys.exit] in two places only, both with
    code 1 and nothing on standard output: after an [ImportError] on the
    import, with the remediation message alone on standard error; or, the
    import having succeeded, with fewer than two entries in [sys.argv] and
    the usage message alone on standard error. *)
Theorem sys_exit_only_from_guards (w : world) (c : Z) :
  ending (run w) = Exited c →
  c = 1 ∧
  stdout (run w) = "" ∧
  ((stderr (run w) = [Text (msg_not_installed +:+ nl)] ∧
    ∃ e, import_whisper w = Raises e ∧ isinstance_ImportError e = true) ∨
   (stderr (run w) = [Text (msg_usage +:+ nl)] ∧
    (∃ wh, import_whisper w = Returns wh) ∧
    (length (sys_argv w) < 2)%nat)).
Proof.
  rewrite run_outline. unfold outline.
  destruct (import_whisper w) as [wh|e] eqn:Hi.
  - destruct (sys_argv w !! 1%nat) as [path|] eqn:Ha.
    + repeat case_match; discriminate.
    + intros [= <-]. repeat split. right. repeat split; [by exists wh|].
      apply lookup_ge_None in Ha. lia.
  - destruct (isinstance_ImportError e) eqn:Hc; [|discriminate].
    intros [= <-]. repeat split. left. split; [reflexivity|by exists e].
Qed.

Lemma sys_exit_only_from_guards_witness :
  1 = 1 ∧
  stdout (run no_args_world) = "" ∧
  ((stderr (run no_args_world) = [Text (msg_not_installed +:+ nl)] ∧
    ∃ e, import_whisper no_args_world = Raises e ∧
         isinstance_ImportError e = true) ∨
   (stderr (run no_args_world) = [Text (msg_usage +:+ nl)] ∧
    (∃ wh, import_whisper no_args_world = Returns wh) ∧
    (length (sys_argv no_args_world) < 2)%nat)).
Proof. apply (sys_exit_only_from_guards no_args_world 1). reflexivity. Defined.

(** X7.  [sys.argv[0]] is never read: a run is the same under any program
    name.  In particular the usage message, whose text names
    [whisper_transcribe.py], does not follow the name the script is run
    under. *)
Theorem program_name_unused (w : world) (prog prog' : string)
    (rest : list string) :
  sys_argv w = prog :: rest →
  run (with_argv (prog' :: rest) w) = run w.
Proof.
  intros Hargs. rewrite !run_outline. unfold outline, with_argv.
  rewrite Hargs. simpl. reflexivity.
Qed.

Lemma program_name_unused_witness :
  run (with_argv ["transcribe.py"; "a.wav"] echo_world) = run echo_world.
Proof.
  apply (program_name_unused echo_world prog_name "transcribe.py" ["a.wav"]).
  reflexivity.
Defined.

(** X8.  The value under ['text'] is not checked to be a string; what the
    last line does with any value [v] follows from [str(v)] and from the
    encoder of standard output.  When [str(v)] returns a text that standard
    output can encode, that text and a newline is the only write to standard
    output, standard error stays empty and the script runs to its end (exit
    status 0).  When [str(v)] raises, or standard output cannot encode the
    text, the error goes uncaught and nothing is written to standard
    output. *)
Theorem any_text_value_printed (w : world) (wh : Whisper) (m : Model)
    (path : string) (r : gmap string pyval) (v : pyval) :
  import_whisper w = Returns wh →
  sys_argv w !! 1%nat = Some path →
  load_model wh "base" = Returns m →
  transcribe m path = Returns r →
  r !! "text" = Some v →
  match py_str v with
  | Returns s =>
      if stdout_encodes w s
      then written Stdout (trace (run w)) = [s +:+ nl] ∧
           stderr (run w) = [] ∧
           ending (run w) = Finished
      else written Stdout (trace (run w)) = [] ∧
           ending (run w) = Uncaught (Exn UnicodeEncodeError s)
  | Raises e =>
      written Stdout (trace (run w)) = [] ∧
      ending (run w) = Uncaught e
  end.
Proof.
  intros Hi Ha Hl Ht Hr. rewrite run_outline. unfold outline.
  rewrite Hi, Ha, Hl, Ht, Hr.
  destruct (py_str v) as [s|e]; [destruct (stdout_encodes w s)|];
    repeat split; reflexivity.
Qed.

Lemma any_text_value_printed_witness :
  written Stdout (trace (run object_text_world)) = ["None" +:+ nl] ∧
  stderr (run object_text_world) = [] ∧
  ending (run object_text_world) = Finished.
Proof.
  apply (any_text_value_printed object_text_world
           (stub_whisper (Returns (stub_model
              (Returns {[ "text" := PyObj (Returns "None") ]}))))
           (stub_model (Returns {[ "text" := PyObj (Returns "None") ]}))
           "a.wav" {[ "text" := PyObj (Returns "None") ]}
           (PyObj (Returns "None"))); reflexivity.
Defined.
